(** * bson/codec_options.py: CodecOptions and _parse_codec_options

    A shallow embedding of [src/bson/codec_options.py].

    Python objects live in a store: a [CodecOptions] instance is a
    reference into a heap of slot records, methods are computations in
    a state-and-exception monad, and the comparison operators [==] and
    [!=] dispatch to the methods [__eq__] and [__ne__] under a bound on
    the depth of nested method calls (the interpreter's recursion
    limit, whose overflow is a RuntimeError).

    The module [bson.binary], from which the source imports
    [ALL_UUID_REPRESENTATIONS] and [PYTHON_LEGACY], is not part of the
    sources: both constants are parameters of the development
    (section [Codec]); [Upstream] instantiates them. *)

From Stdlib Require Import ZArith.
From stdpp Require Import base option list gmap strings.

Open Scope Z_scope.
Open Scope string_scope.
Open Scope list_scope.

(** ** Values *)

(** A class object: its name and the names of the classes it is a
    subclass of, by inheritance or by ABC registration. *)
Record pyclass := PyClass {
  cls_name : string;
  cls_ancestors : list string
}.

#[global] Instance pyclass_eq_dec : EqDecision pyclass.
Proof. solve_decision. Defined.

(** The values the functions of the module are applied to.  [VRef l] is
    a [CodecOptions] instance, stored at address [l] of the heap; no
    other class of this universe has instances of its own. *)
Inductive value :=
  | VNone
  | VBool (b : bool)
  | VInt (z : Z)
  | VStr (s : string)
  | VClass (c : pyclass)
  | VRef (l : nat).

#[global] Instance value_eq_dec : EqDecision value.
Proof. solve_decision. Defined.

(** [dict]; [collections] registers it as a MutableMapping. *)
Definition dict : pyclass :=
  PyClass "dict" ["MutableMapping"; "Mapping"; "object"].

Definition MutableMapping : string := "MutableMapping".

(** ** Exceptions and outcomes *)

Inductive exn :=
  | TypeError (msg : string)
  | ValueError (msg : string)
  | NotImplementedError
  | AttributeError (msg : string)
  | RuntimeError (msg : string).

#[global] Instance exn_eq_dec : EqDecision exn.
Proof. solve_decision. Defined.

Inductive outcome (A : Type) :=
  | Ret (a : A)
  | Raise (e : exn).
Arguments Ret {A} a.
Arguments Raise {A} e.

Definition recursion_limit : exn :=
  RuntimeError "maximum recursion depth exceeded".

(** ** The store *)

(** The three entries of [__slots__]. *)
Inductive slot := S_as_class | S_tz_aware | S_uuid_rep.

#[global] Instance slot_eq_dec : EqDecision slot.
Proof. solve_decision. Defined.

Definition slot_name (s : slot) : string :=
  match s with
  | S_as_class => "__as_class"
  | S_tz_aware => "__tz_aware"
  | S_uuid_rep => "__uuid_rep"
  end.

(** An instance: one optional value per slot ([None]: never assigned). *)
Record object := Object {
  o_as_class : option value;
  o_tz_aware : option value;
  o_uuid_rep : option value
}.

Definition empty_object : object := Object None None None.

Definition read (s : slot) (o : object) : option value :=
  match s with
  | S_as_class => o_as_class o
  | S_tz_aware => o_tz_aware o
  | S_uuid_rep => o_uuid_rep o
  end.

Definition write (s : slot) (v : value) (o : object) : object :=
  match s with
  | S_as_class => Object (Some v) (o_tz_aware o) (o_uuid_rep o)
  | S_tz_aware => Object (o_as_class o) (Some v) (o_uuid_rep o)
  | S_uuid_rep => Object (o_as_class o) (o_tz_aware o) (Some v)
  end.

(** The heap of instances, and the log of every slot assignment made so
    far (address and slot, oldest first). *)
Record state := State {
  heap : list object;
  writes : list (nat * slot)
}.

Definition init_state : state := State [] [].

(** ** The monad of Python computations *)

Definition M (A : Type) : Type := state → outcome A * state.

#[global] Instance M_ret : MRet M := λ A a st, (Ret a, st).

#[global] Instance M_bind : MBind M := λ A B f m st,
  match m st with
  | (Ret a, st') => f a st'
  | (Raise e, st') => (Raise e, st')
  end.

Definition raise {A} (e : exn) : M A := λ st, (Raise e, st).

Definition lift {A} (r : outcome A) : M A := λ st, (r, st).

(** [object.__new__]: a new instance, no slot assigned. *)
Definition alloc : M nat := λ st,
  (Ret (length (heap st)), State (heap st ++ [empty_object]) (writes st)).

(** Reading a slot; a slot never assigned raises AttributeError. *)
Definition getattr (l : nat) (s : slot) : M value := λ st,
  match heap st !! l ≫= read s with
  | Some v => (Ret v, st)
  | None => (Raise (AttributeError (slot_name s)), st)
  end.

(** Assigning a slot. *)
Definition setattr (l : nat) (s : slot) (v : value) : M unit := λ st,
  match heap st !! l with
  | Some o => (Ret tt, State (<[l := write s v o]> (heap st)) (writes st ++ [(l, s)]))
  | None => (Raise (AttributeError (slot_name s)), st)
  end.

(** ** Built-in operations *)

(** The integer a [bool] or [int] denotes ([bool] is a subclass of [int]). *)
Definition int_of (v : value) : option Z :=
  match v with
  | VBool b => Some (Z.b2z b)
  | VInt z => Some z
  | _ => None
  end.

(** [v == w] for two values neither of which is a [CodecOptions]
    instance: numbers by value, strings by contents, classes and [None]
    by identity, values of unrelated types are unequal. *)
Definition prim_eqb (v w : value) : bool :=
  match v, w with
  | VNone, VNone => true
  | VStr s, VStr s' => bool_decide (s = s')
  | VClass c, VClass c' => bool_decide (c = c')
  | _, _ =>
      match int_of v, int_of w with
      | Some x, Some y => Z.eqb x y
      | _, _ => false
      end
  end.

(** [issubclass(v, abc)]; the first argument must be a class. *)
Definition issubclass (v : value) (abc : string) : outcome bool :=
  match v with
  | VClass c => Ret (bool_decide (cls_name c = abc) || bool_decide (abc ∈ cls_ancestors c))
  | _ => Raise (TypeError "issubclass() arg 1 must be a class")
  end.

(** [isinstance(v, bool)]; [bool] cannot be subclassed. *)
Definition isinstance_bool (v : value) : bool :=
  match v with VBool _ => true | _ => false end.

(** [isinstance(v, CodecOptions)]. *)
Definition isinstance_CodecOptions (v : value) : bool :=
  match v with VRef _ => true | _ => false end.

(** [a and b], on computations of truth values: [b] is evaluated only
    when [a] is true. *)
Definition and_then (a b : M bool) : M bool :=
  x ← a; if x : bool then b else mret false.

(** ** The class CodecOptions *)

(** The read-only properties. *)
Definition as_class (self : nat) : M value := getattr self S_as_class.
Definition tz_aware (self : nat) : M value := getattr self S_tz_aware.
Definition uuid_representation (self : nat) : M value := getattr self S_uuid_rep.

(** [__eq__]; [eq] evaluates the operator [==] of the body. *)
Definition CodecOptions___eq__ (eq : value → value → M bool)
    (self : nat) (other : value) : M bool :=
  match other with
  | VRef o =>
      and_then (x ← getattr self S_as_class; y ← as_class o; eq x y)
     (and_then (x ← getattr self S_tz_aware; y ← tz_aware o; eq x y)
               (x ← getattr self S_uuid_rep; y ← uuid_representation o; eq x y))
  | _ => raise NotImplementedError
  end.

(** [__ne__]; [ne] evaluates the operator [!=] of the body. *)
Definition CodecOptions___ne__ (ne : value → value → M bool)
    (self : nat) (other : value) : M bool :=
  ne (VRef self) other.

(** The operator [v == w] with [n] nested method calls left.  The left
    operand's [__eq__] is tried first; the built-in types answer
    NotImplemented to an instance, and the reflected [__eq__] of the
    right operand is called then. *)
Fixpoint op_eq (n : nat) (v w : value) : M bool :=
  match v, w with
  | VRef l, _ =>
      match n with
      | O => raise recursion_limit
      | S m => CodecOptions___eq__ (op_eq m) l w
      end
  | _, VRef l =>
      match n with
      | O => raise recursion_limit
      | S m => CodecOptions___eq__ (op_eq m) l v
      end
  | _, _ => mret (prim_eqb v w)
  end.

(** The operator [v != w], likewise. *)
Fixpoint op_ne (n : nat) (v w : value) : M bool :=
  match v, w with
  | VRef l, _ =>
      match n with
      | O => raise recursion_limit
      | S m => CodecOptions___ne__ (op_ne m) l w
      end
  | _, VRef l =>
      match n with
      | O => raise recursion_limit
      | S m => CodecOptions___ne__ (op_ne m) l v
      end
  | _, _ => mret (negb (prim_eqb v w))
  end.

(** [el in t] for a tuple [t] of integers: the items are compared with
    [el] from left to right until one is equal.  Whether the interpreter
    evaluates [item == el] or [el == item] makes no difference
    ([op_eq_operand_order]). *)
Fixpoint tuple_contains (n : nat) (t : list Z) (el : value) : M bool :=
  match t with
  | [] => mret false
  | x :: t' => b ← op_eq n (VInt x) el; if b : bool then mret true else tuple_contains n t' el
  end.

Section Codec.

(** The constants imported from [bson.binary]: the tuple of the valid
    UUID representations, which are integer codes, and the default one. *)
Variable ALL_UUID_REPRESENTATIONS : list Z.
Variable PYTHON_LEGACY : Z.

Definition CodecOptions___init__ (n : nat) (self : nat)
    (as_class tz_aware uuid_representation : value) : M unit :=
  sub ← lift (issubclass as_class MutableMapping);
  if negb sub then
    raise (TypeError "document_class must be a subclass of MutableMapping")
  else if negb (isinstance_bool tz_aware) then
    raise (TypeError "tz_aware must be a boolean")
  else
    mem ← tuple_contains n ALL_UUID_REPRESENTATIONS uuid_representation;
    if negb mem then
      raise (ValueError "uuid_representation must be a value from bson.binary.ALL_UUID_REPRESENTATIONS")
    else
      setattr self S_as_class as_class;;
      setattr self S_tz_aware tz_aware;;
      setattr self S_uuid_rep uuid_representation.

(** The call [CodecOptions(as_class, tz_aware, uuid_representation)]:
    a new instance is allocated, [__init__] runs on it, and the
    instance is the result unless [__init__] raised. *)
Definition CodecOptions (n : nat)
    (as_class tz_aware uuid_representation : value) : M value :=
  self ← alloc;
  CodecOptions___init__ n self as_class tz_aware uuid_representation;;
  mret (VRef self).

(** [options.get(key, default)] on a dict with string keys. *)
Definition dict_get (options : gmap string value) (key : string) (default : value) : value :=
  match options !! key with
  | Some v => v
  | None => default
  end.

Definition _parse_codec_options (n : nat) (options : gmap string value) : M value :=
  let as_class := dict_get options "document_class" (VClass dict) in
  let tz_aware := dict_get options "tz_aware" (VBool false) in
  let uuid_rep := dict_get options "uuidrepresentation" (VInt PYTHON_LEGACY) in
  CodecOptions n as_class tz_aware uuid_rep.

End Codec.

(** ** The notions the specification speaks of *)

(** The container check: [v] is a class and a subclass of MutableMapping. *)
Definition container_ok (v : value) : bool :=
  match v with
  | VClass c => bool_decide (cls_name c = MutableMapping) || bool_decide (MutableMapping ∈ cls_ancestors c)
  | _ => false
  end.

(** [u] is a member of the enumerated set [t]: it equals one of its codes. *)
Definition uuid_member (t : list Z) (u : value) : bool :=
  existsb (λ z, prim_eqb (VInt z) u) t.

(** A type error, whatever its message. *)
Definition is_TypeError {A} (r : outcome A) : bool :=
  match r with Raise (TypeError _) => true | _ => false end.

(** A value error, whatever its message. *)
Definition is_ValueError {A} (r : outcome A) : bool :=
  match r with Raise (ValueError _) => true | _ => false end.

(** A computation that produced a value. *)
Definition returned {A} (r : outcome A) : bool :=
  match r with Ret _ => true | Raise _ => false end.

(** The instance at [l] is a successfully constructed one, with the
    fields [c], [t] and [u]: all three slots are assigned and their
    values passed the checks of [__init__]. *)
Definition instance_at (all : list Z) (st : state) (l : nat) (c t u : value) : Prop :=
  heap st !! l = Some (Object (Some c) (Some t) (Some u)) ∧
  container_ok c = true ∧ isinstance_bool t = true ∧ uuid_member all u = true.

(** The state a successful construction from [st] ends in. *)
Definition constructed (st : state) (c t u : value) : state :=
  let l := length (heap st) in
  State (heap st ++ [Object (Some c) (Some t) (Some u)])
        (writes st ++ [(l, S_as_class); (l, S_tz_aware); (l, S_uuid_rep)]).

(** The state a failed construction from [st] ends in: the instance
    allocated for it has no slot assigned. *)
Definition abandoned (st : state) : state :=
  State (heap st ++ [empty_object]) (writes st).

(** Computations that leave the state as it is. *)
Definition pure {A} (m : M A) : Prop := ∀ st, snd (m st) = st.

(** The adapter as the specification words it: the three keys are
    resolved, each with its default, and the constructor is applied to
    the three resolved values. *)
Definition parse_options_spec (all : list Z) (legacy : Z) (n : nat)
    (bag : gmap string value) : M value :=
  CodecOptions all n
    (default (VClass dict) (bag !! "document_class"))
    (default (VBool false) (bag !! "tz_aware"))
    (default (VInt legacy) (bag !! "uuidrepresentation")).

(** The three keys [_parse_codec_options] looks up. *)
Definition known_keys : list string :=
  ["document_class"; "tz_aware"; "uuidrepresentation"].

(** The constants as [bson.binary] defines them in the driver this
    module belongs to: the binary subtypes 3 and 4 and the two legacy
    layouts 5 and 6, with the old subtype 3 as the default. *)
Module Upstream.
Definition ALL_UUID_REPRESENTATIONS : list Z := [3; 4; 5; 6].
Definition PYTHON_LEGACY : Z := 3.
End Upstream.

(** Some classes and states to evaluate the definitions on. *)
Definition OrderedDict : pyclass :=
  PyClass "OrderedDict" ["dict"; "MutableMapping"; "Mapping"; "object"].
Definition str : pyclass := PyClass "str" ["basestring"; "object"].

(** The state after [CodecOptions()], whose instance is at address 0. *)
Definition st_default : state :=
  constructed init_state (VClass dict) (VBool false) (VInt 3).

(** The state after a second call, [CodecOptions(OrderedDict, True, 4)],
    whose instance is at address 1. *)
Definition st_two : state :=
  constructed st_default (VClass OrderedDict) (VBool true) (VInt 4).

(** ** Running computations *)

(** ** The capability set of the specification *)

(** What the specification asks of a document container type: the map
    operations get, set and delete, iteration, unique keys, and
    iteration in insertion order.  These are properties of what a class
    implements; its name and its bases do not determine them. *)
Record capabilities := Capabilities {
  cap_get_set_delete : bool;
  cap_iterate : bool;
  cap_unique_keys : bool;
  cap_insertion_order : bool
}.

(** The ordered, mutable, key-unique, insertion-order-preserving map. *)
Definition ordered_mutable_map (k : capabilities) : bool :=
  cap_get_set_delete k && cap_iterate k && cap_unique_keys k && cap_insertion_order k.

(** A class as it is declared, with what it implements. *)
Record class_decl := ClassDecl {
  decl_class : pyclass;
  decl_caps : capabilities
}.

(** [class SortedMap(MutableMapping)], which keeps its keys sorted and
    iterates in key order, not in insertion order. *)
Definition SortedMap : class_decl :=
  ClassDecl (PyClass "SortedMap" ["MutableMapping"; "Mapping"; "object"])
            (Capabilities true true true false).

(** [class Journal(object)], which implements the whole capability set
    and neither inherits from MutableMapping nor is registered with it. *)
Definition Journal : class_decl :=
  ClassDecl (PyClass "Journal" ["object"]) (Capabilities true true true true).

(** ** Histories of constructor calls *)

(** The references a program holds after a call: the instance the call
    returned, if it returned one, and those held before. *)
Definition new_refs (r : outcome value) (refs : list nat) : list nat :=
  match r with
  | Ret (VRef l) => l :: refs
  | _ => refs
  end.

(** [history all st refs]: the state [st] is reached from the initial
    one by calls of the constructor (each with its own arguments and
    its own outcome), and [refs] are the instances those calls
    returned.  The accessors and the comparison operators leave the
    state as it is, so they add no case. *)
Inductive history (all : list Z) : state → list nat → Prop :=
  | history_init : history all init_state []
  | history_call n c t u st refs :
      history all st refs →
      history all (snd (CodecOptions all n c t u st))
                  (new_refs (fst (CodecOptions all n c t u st)) refs).

Section CodecTheory.

Context (ALL : list Z) (LEGACY : Z).

Lemma run_bind {A B} (m : M A) (k : A → M B) (st : state) :
  (x ← m; k x) st =
  match m st with
  | (Ret a, st') => k a st'
  | (Raise e, st') => (Raise e, st')
  end.
Proof. reflexivity. Qed.

Lemma op_eq_prim n v w st :
  isinstance_CodecOptions v = false → isinstance_CodecOptions w = false →
  op_eq n v w st = (Ret (prim_eqb v w), st).
Proof. destruct n, v, w; simpl; intros; try discriminate; reflexivity. Qed.

Lemma tuple_contains_prim n t u st :
  isinstance_CodecOptions u = false →
  tuple_contains n t u st = (Ret (uuid_member t u), st).
Proof.
  intros Hu. induction t as [|x t IH]; [reflexivity|].
  cbn [tuple_contains uuid_member existsb].
  rewrite run_bind, op_eq_prim by (assumption || reflexivity).
  destruct (prim_eqb (VInt x) u); [reflexivity | exact IH].
Qed.

Lemma member_not_instance t u :
  uuid_member t u = true → isinstance_CodecOptions u = false.
Proof.
  destruct u; try reflexivity. intros H. exfalso.
  induction t as [|x t IH]; simpl in H; [discriminate | auto].
Qed.

Lemma container_ok_issubclass c :
  container_ok c = true → issubclass c MutableMapping = Ret true.
Proof. destruct c; simpl; try discriminate. intros ->. reflexivity. Qed.


Lemma init_unfold n self c t u st :
  CodecOptions___init__ ALL n self c t u st =
  match issubclass c MutableMapping with
  | Raise e => (Raise e, st)
  | Ret false => (Raise (TypeError "document_class must be a subclass of MutableMapping"), st)
  | Ret true =>
      if isinstance_bool t then
        match tuple_contains n ALL u st with
        | (Ret true, st') =>
            (setattr self S_as_class c;; setattr self S_tz_aware t;; setattr self S_uuid_rep u) st'
        | (Ret false, st') =>
            (Raise (ValueError "uuid_representation must be a value from bson.binary.ALL_UUID_REPRESENTATIONS"), st')
        | (Raise e, st') => (Raise e, st')
        end
      else (Raise (TypeError "tz_aware must be a boolean"), st)
  end.
Proof.
  unfold CodecOptions___init__. rewrite run_bind. unfold lift.
  destruct (issubclass c MutableMapping) as [[]|]; try reflexivity.
  destruct (isinstance_bool t); try reflexivity.
  cbn [negb]. rewrite run_bind.
  destruct (tuple_contains n ALL u st) as [[[]|] st']; reflexivity.
Qed.

Lemma setattr_all l o c t u hp ws :
  hp !! l = Some o →
  (setattr l S_as_class c;; setattr l S_tz_aware t;; setattr l S_uuid_rep u) (State hp ws) =
  (Ret tt, State (<[l := Object (Some c) (Some t) (Some u)]> hp)
                 (ws ++ [(l, S_as_class); (l, S_tz_aware); (l, S_uuid_rep)])).
Proof.
  intros Hl. assert (l < length hp)%nat by (eapply lookup_lt_Some; eassumption).
  rewrite run_bind. unfold setattr at 1. cbn [heap writes]. rewrite Hl.
  rewrite run_bind. unfold setattr at 1. cbn [heap writes].
  rewrite list_lookup_insert_eq by assumption.
  unfold setattr. cbn [heap writes].
  rewrite list_lookup_insert_eq by (rewrite length_insert; assumption).
  rewrite !list_insert_insert_eq. rewrite <- !app_assoc. reflexivity.
Qed.

Lemma pure_ret {A} (a : A) : pure (mret a).
Proof. intros st. reflexivity. Qed.

Lemma pure_raise {A} e : pure (@raise A e).
Proof. intros st. reflexivity. Qed.

Lemma pure_bind {A B} (m : M A) (k : A → M B) :
  pure m → (∀ a, pure (k a)) → pure (x ← m; k x).
Proof.
  intros Hm Hk st. rewrite run_bind. specialize (Hm st).
  destruct (m st) as [[a|e] st']; simpl in Hm; subst st'; [apply Hk | reflexivity].
Qed.

Lemma pure_getattr l s : pure (getattr l s).
Proof. intros st. unfold getattr. destruct (heap st !! l ≫= read s); reflexivity. Qed.

Lemma pure_and_then a b : pure a → pure b → pure (and_then a b).
Proof.
  intros Ha Hb. apply pure_bind; [exact Ha|]. intros []; [exact Hb | apply pure_ret].
Qed.

Lemma pure_eq_body eq self other :
  (∀ x y, pure (eq x y)) → pure (CodecOptions___eq__ eq self other).
Proof.
  intros Heq. destruct other; try apply pure_raise.
  unfold CodecOptions___eq__, as_class, tz_aware, uuid_representation.
  repeat first [apply pure_and_then | apply pure_bind | apply pure_getattr | intro | apply Heq].
Qed.

Lemma pure_op_eq n v w : pure (op_eq n v w).
Proof.
  revert v w. induction n as [|n IH]; intros v w; destruct v, w; cbn [op_eq];
    first [apply pure_ret | apply pure_raise | apply pure_eq_body; exact IH].
Qed.

Lemma pure_op_ne n v w : pure (op_ne n v w).
Proof.
  revert v w. induction n as [|n IH]; intros v w; destruct v, w; cbn [op_ne];
    first [apply pure_ret | apply pure_raise | apply IH].
Qed.

Lemma pure_tuple_contains n t el : pure (tuple_contains n t el).
Proof.
  induction t as [|x t IH]; cbn [tuple_contains]; [apply pure_ret|].
  apply pure_bind; [apply pure_op_eq|]. intros []; [apply pure_ret | exact IH].
Qed.

Lemma constructed_insert st c t u :
  State (<[length (heap st) := Object (Some c) (Some t) (Some u)]> (heap st ++ [empty_object]))
        (writes st ++ [(length (heap st), S_as_class); (length (heap st), S_tz_aware);
                       (length (heap st), S_uuid_rep)]) = constructed st c t u.
Proof.
  unfold constructed. f_equal.
  rewrite insert_app_r_alt by reflexivity. rewrite Nat.sub_diag. reflexivity.
Qed.

(** The membership test raises nothing but what [==] raises. *)
Lemma tuple_contains_raises n t u st e :
  fst (tuple_contains n t u st) = Raise e → e = NotImplementedError ∨ e = recursion_limit.
Proof.
  destruct u; try (rewrite tuple_contains_prim by reflexivity; discriminate).
  destruct t as [|x t]; [discriminate|].
  cbn [tuple_contains op_eq]. destruct n; cbn; intros [= <-]; auto.
Qed.

(** The constructor, check by check. *)
Lemma construct_unfold n c t u st :
  CodecOptions ALL n c t u st =
  match issubclass c MutableMapping with
  | Raise e => (Raise e, abandoned st)
  | Ret false =>
      (Raise (TypeError "document_class must be a subclass of MutableMapping"), abandoned st)
  | Ret true =>
      if isinstance_bool t then
        match fst (tuple_contains n ALL u (abandoned st)) with
        | Ret true => (Ret (VRef (length (heap st))), constructed st c t u)
        | Ret false =>
            (Raise (ValueError "uuid_representation must be a value from bson.binary.ALL_UUID_REPRESENTATIONS"),
             abandoned st)
        | Raise e => (Raise e, abandoned st)
        end
      else (Raise (TypeError "tz_aware must be a boolean"), abandoned st)
  end.
Proof.
  unfold CodecOptions. rewrite run_bind. unfold alloc at 1. rewrite run_bind, init_unfold.
  fold (abandoned st).
  destruct (issubclass c MutableMapping) as [[]|]; try reflexivity.
  destruct (isinstance_bool t); try reflexivity.
  pose proof (pure_tuple_contains n ALL u (abandoned st)) as Hp.
  destruct (tuple_contains n ALL u (abandoned st)) as [[[]|] st']; simpl in Hp; subst st';
    try reflexivity.
  cbn [fst]. unfold abandoned.
  rewrite (setattr_all _ empty_object) by (apply list_lookup_middle; reflexivity).
  rewrite constructed_insert. reflexivity.
Qed.

(** A call of the constructor either returns the new instance, with
    each slot assigned once, or raises with no slot assigned. *)
Lemma construct_cases n c t u st :
  CodecOptions ALL n c t u st = (Ret (VRef (length (heap st))), constructed st c t u) ∨
  ∃ e, CodecOptions ALL n c t u st = (Raise e, abandoned st).
Proof.
  rewrite construct_unfold.
  destruct (issubclass c MutableMapping) as [[]|]; [| right; eexists; reflexivity ..].
  destruct (isinstance_bool t); [| right; eexists; reflexivity].
  destruct (fst (tuple_contains n ALL u (abandoned st))) as [[]|];
    [left; reflexivity | right; eexists; reflexivity ..].
Qed.

Lemma construct_run n c t u st :
  container_ok c = true → isinstance_bool t = true → uuid_member ALL u = true →
  CodecOptions ALL n c t u st = (Ret (VRef (length (heap st))), constructed st c t u).
Proof.
  intros Hc Ht Hu. rewrite construct_unfold, (container_ok_issubclass c Hc), Ht.
  rewrite (tuple_contains_prim n ALL u _ (member_not_instance _ _ Hu)), Hu. reflexivity.
Qed.

Lemma construct_fail_container n c t u st :
  container_ok c = false →
  ∃ msg, CodecOptions ALL n c t u st = (Raise (TypeError msg), abandoned st).
Proof.
  intros Hc. rewrite construct_unfold.
  destruct c; simpl in *; try (eexists; reflexivity).
  fold MutableMapping. rewrite Hc. eexists; reflexivity.
Qed.

Lemma construct_fail_bool n c t u st :
  container_ok c = true → isinstance_bool t = false →
  CodecOptions ALL n c t u st = (Raise (TypeError "tz_aware must be a boolean"), abandoned st).
Proof.
  intros Hc Ht. rewrite construct_unfold, (container_ok_issubclass c Hc), Ht. reflexivity.
Qed.

Lemma construct_fail_uuid n c t u st :
  container_ok c = true → isinstance_bool t = true →
  isinstance_CodecOptions u = false → uuid_member ALL u = false →
  CodecOptions ALL n c t u st =
  (Raise (ValueError "uuid_representation must be a value from bson.binary.ALL_UUID_REPRESENTATIONS"),
   abandoned st).
Proof.
  intros Hc Ht Hi Hu. rewrite construct_unfold, (container_ok_issubclass c Hc), Ht.
  rewrite (tuple_contains_prim n ALL u _ Hi), Hu. reflexivity.
Qed.

(** ** Equality of values and of instances *)

Lemma prim_eqb_refl v : isinstance_CodecOptions v = false → prim_eqb v v = true.
Proof.
  destruct v; simpl; intros; try discriminate;
    first [reflexivity | apply Z.eqb_refl | apply bool_decide_eq_true; reflexivity].
Qed.

Lemma prim_eqb_sym v w : prim_eqb v w = prim_eqb w v.
Proof.
  destruct v, w; simpl; try reflexivity;
    first [apply Z.eqb_sym | apply bool_decide_ext; split; congruence].
Qed.

Lemma op_eq_operand_order n x el : op_eq n (VInt x) el = op_eq n el (VInt x).
Proof.
  destruct el, n; cbn [op_eq]; try reflexivity; rewrite prim_eqb_sym; reflexivity.
Qed.

Lemma prim_eqb_trans v w x :
  prim_eqb v w = true → prim_eqb w x = true → prim_eqb v x = true.
Proof.
  destruct v, w; simpl; try discriminate; destruct x; simpl; try discriminate;
    rewrite ?Z.eqb_eq, ?bool_decide_eq_true; congruence.
Qed.

Lemma prim_eqb_class c c' :
  container_ok c = true → container_ok c' = true → prim_eqb c c' = true → c = c'.
Proof.
  destruct c, c'; simpl; try discriminate. intros _ _ H.
  apply bool_decide_eq_true in H. congruence.
Qed.

Lemma prim_eqb_bool t t' :
  isinstance_bool t = true → isinstance_bool t' = true → prim_eqb t t' = true → t = t'.
Proof.
  destruct t as [|b| | | |], t' as [|b'| | | |]; simpl; try discriminate. intros _ _ H.
  apply Z.eqb_eq in H. destruct b, b'; simpl in H; congruence.
Qed.

Lemma prim_eqb_int v w : prim_eqb v w = true → int_of v = int_of w.
Proof.
  destruct v, w; simpl; try discriminate; try reflexivity;
    intros H; apply Z.eqb_eq in H; congruence.
Qed.

Lemma container_not_instance c : container_ok c = true → isinstance_CodecOptions c = false.
Proof. destruct c; simpl; congruence. Qed.

Lemma bool_not_instance t : isinstance_bool t = true → isinstance_CodecOptions t = false.
Proof. destruct t; simpl; congruence. Qed.

Lemma getattr_instance st l c t u :
  instance_at ALL st l c t u →
  getattr l S_as_class st = (Ret c, st) ∧
  getattr l S_tz_aware st = (Ret t, st) ∧
  getattr l S_uuid_rep st = (Ret u, st).
Proof. intros (Hl & _). unfold getattr. rewrite Hl. repeat split. Qed.

Lemma run_bind_ret {A B} (m : M A) (k : A → M B) st a st' :
  m st = (Ret a, st') → (x ← m; k x) st = k a st'.
Proof. intros H. rewrite run_bind, H. reflexivity. Qed.

Lemma field_eq_run n st a b s va vb :
  getattr a s st = (Ret va, st) → getattr b s st = (Ret vb, st) →
  isinstance_CodecOptions va = false → isinstance_CodecOptions vb = false →
  (x ← getattr a s; y ← getattr b s; op_eq n x y) st = (Ret (prim_eqb va vb), st).
Proof.
  intros Ha Hb Hva Hvb.
  rewrite (run_bind_ret _ _ _ _ _ Ha), (run_bind_ret _ _ _ _ _ Hb).
  apply op_eq_prim; assumption.
Qed.

(** [a == b] on two constructed instances compares the fields. *)
Lemma op_eq_instances n st a b ca ta ua cb tb ub :
  instance_at ALL st a ca ta ua → instance_at ALL st b cb tb ub →
  op_eq (S n) (VRef a) (VRef b) st =
  (Ret (prim_eqb ca cb && prim_eqb ta tb && prim_eqb ua ub), st).
Proof.
  intros Ha Hb.
  destruct (getattr_instance _ _ _ _ _ Ha) as (Ha1 & Ha2 & Ha3).
  destruct (getattr_instance _ _ _ _ _ Hb) as (Hb1 & Hb2 & Hb3).
  destruct Ha as (_ & Hca & Hta & Hua), Hb as (_ & Hcb & Htb & Hub).
  cbn [op_eq CodecOptions___eq__].
  unfold and_then, as_class, tz_aware, uuid_representation.
  rewrite (run_bind_ret _ _ _ _ _ (field_eq_run n _ _ _ _ _ _ Ha1 Hb1
    (container_not_instance _ Hca) (container_not_instance _ Hcb))).
  destruct (prim_eqb ca cb); [|reflexivity].
  rewrite (run_bind_ret _ _ _ _ _ (field_eq_run n _ _ _ _ _ _ Ha2 Hb2
    (bool_not_instance _ Hta) (bool_not_instance _ Htb))).
  destruct (prim_eqb ta tb); [|reflexivity].
  apply (field_eq_run n _ _ _ _ _ _ Ha3 Hb3
    (member_not_instance _ _ Hua) (member_not_instance _ _ Hub)).
Qed.

(** What the constructor returns is a constructed instance, and the
    instances there were remain so. *)
Lemma instance_at_new st c t u :
  container_ok c = true → isinstance_bool t = true → uuid_member ALL u = true →
  instance_at ALL (constructed st c t u) (length (heap st)) c t u.
Proof.
  intros Hc Ht Hu. split; [|auto]. unfold constructed. cbn [heap].
  apply list_lookup_middle. reflexivity.
Qed.

Lemma instance_at_old st l c t u c' t' u' :
  instance_at ALL st l c t u → instance_at ALL (constructed st c' t' u') l c t u.
Proof.
  intros (Hl & H). split; [|exact H]. unfold constructed. cbn [heap].
  apply lookup_app_l_Some. exact Hl.
Qed.

Lemma member_of_elem z t : z ∈ t → uuid_member t (VInt z) = true.
Proof.
  induction 1 as [z t|z x t _ IH]; cbn [uuid_member existsb].
  - change (prim_eqb (VInt z) (VInt z)) with (Z.eqb z z). rewrite Z.eqb_refl. reflexivity.
  - unfold uuid_member in IH. rewrite IH. apply orb_true_r.
Qed.

Lemma member_int t u : uuid_member t u = true → ∃ z, z ∈ t ∧ int_of u = Some z.
Proof.
  induction t as [|x t IH]; cbn [uuid_member existsb]; [discriminate|].
  intros H. apply orb_true_iff in H as [H|H].
  - exists x. split; [left|]. apply prim_eqb_int in H. symmetry. exact H.
  - destruct (IH H) as (z & Hz & Hu). exists z. split; [right|]; assumption.
Qed.

Lemma dict_get_insert_ne (bag : gmap string value) k k' v d :
  k ≠ k' → dict_get (<[k:=v]> bag) k' d = dict_get bag k' d.
Proof. intros Hk. unfold dict_get. rewrite lookup_insert_ne by exact Hk. reflexivity. Qed.

Lemma dict_get_absent (bag : gmap string value) k d :
  bag !! k = None → dict_get bag k d = d.
Proof. intros H. unfold dict_get. rewrite H. reflexivity. Qed.

Lemma construct_frame n c t u st l :
  (l < length (heap st))%nat →
  heap (snd (CodecOptions ALL n c t u st)) !! l = heap st !! l.
Proof.
  intros Hl.
  destruct (construct_cases n c t u st) as [-> | [e ->]]; cbn [snd constructed abandoned heap];
    apply lookup_app_l; exact Hl.
Qed.

(** ** The claims *)

(** C1: a triple that passes the three checks (the container check,
    a genuine boolean, a member of the enumerated set) is accepted: the
    constructor returns the new instance, and the accessors [as_class],
    [tz_aware] and [uuid_representation] of that instance return the
    three supplied values. *)
Theorem construct_valid_accessors n c t u st :
  container_ok c = true → isinstance_bool t = true → uuid_member ALL u = true →
  CodecOptions ALL n c t u st = (Ret (VRef (length (heap st))), constructed st c t u) ∧
  as_class (length (heap st)) (constructed st c t u) = (Ret c, constructed st c t u) ∧
  tz_aware (length (heap st)) (constructed st c t u) = (Ret t, constructed st c t u) ∧
  uuid_representation (length (heap st)) (constructed st c t u) = (Ret u, constructed st c t u).
Proof.
  intros Hc Ht Hu. split; [apply construct_run; assumption|].
  apply getattr_instance, instance_at_new; assumption.
Qed.

(** C2: on constructed instances [a == b] returns the conjunction of
    the pairwise comparisons of the three fields.  Two instances with
    the same fields are equal, a difference in any one field makes them
    unequal, and the comparison is reflexive, symmetric and
    transitive. *)
Theorem eq_fieldwise n st a b d ca ta ua cb tb ub cd td ud :
  instance_at ALL st a ca ta ua →
  instance_at ALL st b cb tb ub →
  instance_at ALL st d cd td ud →
  op_eq (S n) (VRef a) (VRef b) st =
    (Ret (prim_eqb ca cb && prim_eqb ta tb && prim_eqb ua ub), st) ∧
  (ca = cb → ta = tb → ua = ub → op_eq (S n) (VRef a) (VRef b) st = (Ret true, st)) ∧
  (ca ≠ cb ∨ ta ≠ tb ∨ int_of ua ≠ int_of ub →
   op_eq (S n) (VRef a) (VRef b) st = (Ret false, st)) ∧
  op_eq (S n) (VRef a) (VRef a) st = (Ret true, st) ∧
  op_eq (S n) (VRef a) (VRef b) st = op_eq (S n) (VRef b) (VRef a) st ∧
  (op_eq (S n) (VRef a) (VRef b) st = (Ret true, st) →
   op_eq (S n) (VRef b) (VRef d) st = (Ret true, st) →
   op_eq (S n) (VRef a) (VRef d) st = (Ret true, st)).
Proof.
  intros Ha Hb Hd.
  rewrite (op_eq_instances n _ _ _ _ _ _ _ _ _ Ha Hb), (op_eq_instances n _ _ _ _ _ _ _ _ _ Hb Ha),
    (op_eq_instances n _ _ _ _ _ _ _ _ _ Ha Ha), (op_eq_instances n _ _ _ _ _ _ _ _ _ Hb Hd),
    (op_eq_instances n _ _ _ _ _ _ _ _ _ Ha Hd).
  destruct Ha as (_ & Hca & Hta & Hua), Hb as (_ & Hcb & Htb & Hub).
  assert (Hrefl : prim_eqb ca ca && prim_eqb ta ta && prim_eqb ua ua = true).
  { rewrite !prim_eqb_refl; first reflexivity;
      eauto using container_not_instance, bool_not_instance, member_not_instance. }
  repeat split.
  - intros <- <- <-. rewrite Hrefl. reflexivity.
  - intros Hne. do 2 f_equal. apply not_true_is_false. intros H.
    apply andb_true_iff in H as [H Hu]. apply andb_true_iff in H as [Hc Ht].
    destruct Hne as [Hne | [Hne | Hne]]; apply Hne;
      eauto using prim_eqb_class, prim_eqb_bool, prim_eqb_int.
  - rewrite Hrefl. reflexivity.
  - rewrite (prim_eqb_sym ca), (prim_eqb_sym ta), (prim_eqb_sym ua). reflexivity.
  - intros H1 H2. do 2 f_equal.
    injection H1 as H1. injection H2 as H2.
    apply andb_true_iff in H1 as [H1 Hu1]. apply andb_true_iff in H1 as [Hc1 Ht1].
    apply andb_true_iff in H2 as [H2 Hu2]. apply andb_true_iff in H2 as [Hc2 Ht2].
    rewrite (prim_eqb_trans _ _ _ Hc1 Hc2), (prim_eqb_trans _ _ _ Ht1 Ht2),
      (prim_eqb_trans _ _ _ Hu1 Hu2). reflexivity.
Qed.

(** C3: [_parse_codec_options] is the constructor applied to the values
    of the keys "document_class", "tz_aware" and "uuidrepresentation",
    with [dict], [False] and [PYTHON_LEGACY] for an absent key, whatever
    the constructor does on them (a failure included).  An entry under
    any other key changes nothing; on the empty bag the result is
    [CodecOptions(dict, False, PYTHON_LEGACY)], and so it is on a bag
    with none of the three keys, where the call succeeds. *)
Theorem parse_codec_options_delegates n (bag : gmap string value) st :
  _parse_codec_options ALL LEGACY n bag st = parse_options_spec ALL LEGACY n bag st ∧
  (∀ k v, k ∉ known_keys →
     _parse_codec_options ALL LEGACY n (<[k:=v]> bag) st = _parse_codec_options ALL LEGACY n bag st) ∧
  _parse_codec_options ALL LEGACY n ∅ st =
    CodecOptions ALL n (VClass dict) (VBool false) (VInt LEGACY) st ∧
  (bag !! "document_class" = None → bag !! "tz_aware" = None →
   bag !! "uuidrepresentation" = None →
   _parse_codec_options ALL LEGACY n bag st = _parse_codec_options ALL LEGACY n ∅ st ∧
   (LEGACY ∈ ALL →
    _parse_codec_options ALL LEGACY n bag st =
    (Ret (VRef (length (heap st))), constructed st (VClass dict) (VBool false) (VInt LEGACY)))).
Proof.
  split; [|split; [|split]].
  - unfold _parse_codec_options, parse_options_spec, dict_get.
    destruct (bag !! "document_class"), (bag !! "tz_aware"), (bag !! "uuidrepresentation");
      reflexivity.
  - intros k v Hk. unfold known_keys in Hk.
    apply not_elem_of_cons in Hk as [H1 Hk]. apply not_elem_of_cons in Hk as [H2 Hk].
    apply not_elem_of_cons in Hk as [H3 _].
    unfold _parse_codec_options. rewrite !dict_get_insert_ne by assumption. reflexivity.
  - reflexivity.
  - intros H1 H2 H3. unfold _parse_codec_options.
    rewrite !dict_get_absent by (assumption || apply lookup_empty).
    split; [reflexivity|]. intros Hin.
    apply construct_run; [reflexivity | reflexivity | apply member_of_elem, Hin].
Qed.

(** C5, as amended: an [as_class] that is not a class, or not a
    subclass of MutableMapping, makes the constructor raise TypeError
    whatever the other two arguments are, before any slot is assigned
    and with no instance returned.  An [as_class] that is a subclass of
    MutableMapping passes the check, whatever it implements: the
    constructor then raises no TypeError of this check, raises the
    TypeError of the boolean check exactly when [tz_aware] is not a
    [bool], raises no TypeError at all when it is one, and returns the
    instance when [uuid_representation] is valid too. *)
Theorem container_check n c t u st :
  (container_ok c = false →
   is_TypeError (fst (CodecOptions ALL n c t u st)) = true ∧
   snd (CodecOptions ALL n c t u st) = abandoned st) ∧
  (container_ok c = true →
   issubclass c MutableMapping = Ret true ∧
   fst (CodecOptions ALL n c t u st) ≠
     Raise (TypeError "document_class must be a subclass of MutableMapping") ∧
   fst (CodecOptions ALL n c t u st) ≠ Raise (TypeError "issubclass() arg 1 must be a class") ∧
   (isinstance_bool t = false →
    CodecOptions ALL n c t u st =
    (Raise (TypeError "tz_aware must be a boolean"), abandoned st)) ∧
   (isinstance_bool t = true →
    is_TypeError (fst (CodecOptions ALL n c t u st)) = false) ∧
   (isinstance_bool t = true → uuid_member ALL u = true →
    CodecOptions ALL n c t u st = (Ret (VRef (length (heap st))), constructed st c t u))).
Proof.
  split; intros Hc.
  - destruct (construct_fail_container n c t u st Hc) as [msg ->]. split; reflexivity.
  - split; [apply container_ok_issubclass, Hc|].
    assert (Hb : isinstance_bool t = true →
                 is_TypeError (fst (CodecOptions ALL n c t u st)) = false).
    { intros Ht. rewrite construct_unfold, (container_ok_issubclass c Hc), Ht.
      destruct (fst (tuple_contains n ALL u (abandoned st))) as [[]|e] eqn:E;
        cbn [fst]; try reflexivity.
      pose proof (tuple_contains_raises n ALL u (abandoned st) e E) as [-> | ->];
        reflexivity. }
    destruct (isinstance_bool t) eqn:Ht.
    + specialize (Hb eq_refl).
      split; [intros E; rewrite E in Hb; discriminate|].
      split; [intros E; rewrite E in Hb; discriminate|].
      split; [discriminate|]. split; [intros _; exact Hb|].
      intros _ Hu. apply construct_run; assumption.
    + rewrite (construct_fail_bool n c t u st Hc Ht). cbn [fst].
      split; [discriminate|]. split; [discriminate|].
      split; [reflexivity|]. split; discriminate.
Qed.

(** C6: with an [as_class] that passes the container check and a
    [tz_aware] that is not a [bool], the constructor raises the
    TypeError of the boolean check whatever [uuid_representation] is:
    the membership test is not reached. *)
Theorem bool_check_before_uuid n c t u st :
  container_ok c = true → isinstance_bool t = false →
  CodecOptions ALL n c t u st =
  (Raise (TypeError "tz_aware must be a boolean"), abandoned st).
Proof. apply construct_fail_bool. Qed.

(** C7, as amended: with [as_class] and [tz_aware] passing their
    checks, a [uuid_representation] that is not a [CodecOptions]
    instance and not a member of the enumerated set makes the
    constructor raise ValueError; a member passes the check and the
    constructor returns. *)
Theorem uuid_check n c t u st :
  container_ok c = true → isinstance_bool t = true →
  (isinstance_CodecOptions u = false → uuid_member ALL u = false →
   CodecOptions ALL n c t u st =
   (Raise (ValueError "uuid_representation must be a value from bson.binary.ALL_UUID_REPRESENTATIONS"),
    abandoned st)) ∧
  (uuid_member ALL u = true →
   CodecOptions ALL n c t u st = (Ret (VRef (length (heap st))), constructed st c t u)).
Proof.
  intros Hc Ht. split.
  - intros Hi Hu. apply construct_fail_uuid; assumption.
  - intros Hu. apply construct_run; assumption.
Qed.

(** C8: [a == b] with [a] an instance and [b] a value that is not one
    raises NotImplementedError, and returns no truth value under any
    bound on the call depth; so does [b == a], which reaches the same
    [__eq__] as the reflected method. *)
Theorem eq_other_type_raises n a b st :
  isinstance_CodecOptions b = false →
  op_eq (S n) (VRef a) b st = (Raise NotImplementedError, st) ∧
  op_eq (S n) b (VRef a) st = (Raise NotImplementedError, st) ∧
  returned (fst (op_eq n (VRef a) b st)) = false.
Proof.
  intros Hb. destruct b; try discriminate; (split; [reflexivity | split; [reflexivity|]]);
    destruct n; reflexivity.
Qed.

(** C9: the constructor either returns the new instance with each of
    its three slots assigned exactly once, or raises with no slot
    assigned and no instance returned; in both cases the instances that
    existed keep their slots.  The accessors and the operators [==] and
    [!=] leave the state as it is, so a read repeated after any of them
    returns the same value. *)
Theorem fields_set_once n c t u st :
  (CodecOptions ALL n c t u st = (Ret (VRef (length (heap st))), constructed st c t u) ∨
   ∃ e, CodecOptions ALL n c t u st = (Raise e, abandoned st)) ∧
  (∀ l, (l < length (heap st))%nat →
     heap (snd (CodecOptions ALL n c t u st)) !! l = heap st !! l) ∧
  (∀ l, snd (as_class l st) = st ∧ snd (tz_aware l st) = st ∧
        snd (uuid_representation l st) = st) ∧
  (∀ m v w, snd (op_eq m v w st) = st ∧ snd (op_ne m v w st) = st) ∧
  (∀ l s, getattr l s (snd (getattr l s st)) = getattr l s st) ∧
  (∀ l s m v w, getattr l s (snd (op_eq m v w st)) = getattr l s st).
Proof.
  split; [apply construct_cases|].
  split; [intros l; apply construct_frame|].
  split; [intros l; repeat split; apply pure_getattr|].
  split; [intros m v w; split; [apply pure_op_eq | apply pure_op_ne]|].
  split; [intros l s; rewrite pure_getattr; reflexivity|].
  intros l s m v w. rewrite pure_op_eq. reflexivity.
Qed.

(** C10: [a != b] with [a] an instance returns nothing: [__ne__]
    evaluates [self != other], which calls [__ne__] on the same
    operands again, so whatever the bound on the call depth the
    evaluation exhausts it. *)
Theorem ne_never_returns n a b st :
  CodecOptions___ne__ (op_ne n) a b = op_ne n (VRef a) b ∧
  op_ne (S n) (VRef a) b = op_ne n (VRef a) b ∧
  op_ne n (VRef a) b st = (Raise recursion_limit, st) ∧
  returned (fst (op_ne n (VRef a) b st)) = false.
Proof.
  split; [reflexivity|]. split; [destruct b; reflexivity|].
  assert (H : op_ne n (VRef a) b st = (Raise recursion_limit, st)).
  { induction n as [|n IH]; [destruct b; reflexivity|].
    destruct b; cbn [op_ne]; exact IH. }
  rewrite H. split; reflexivity.
Qed.

End CodecTheory.

(** ** The definitions evaluated *)

Example construct_default :
  CodecOptions Upstream.ALL_UUID_REPRESENTATIONS 1000
    (VClass dict) (VBool false) (VInt Upstream.PYTHON_LEGACY) init_state =
  (Ret (VRef 0), st_default).
Proof. vm_compute. reflexivity. Qed.

Example construct_second :
  CodecOptions Upstream.ALL_UUID_REPRESENTATIONS 1000
    (VClass OrderedDict) (VBool true) (VInt 4) st_default =
  (Ret (VRef 1), st_two).
Proof. vm_compute. reflexivity. Qed.

Example parse_tz_aware :
  _parse_codec_options Upstream.ALL_UUID_REPRESENTATIONS Upstream.PYTHON_LEGACY 1000
    {["tz_aware" := VBool true]} init_state =
  (Ret (VRef 0), constructed init_state (VClass dict) (VBool true) (VInt 3)).
Proof. vm_compute. reflexivity. Qed.

Example construct_not_a_class :
  CodecOptions Upstream.ALL_UUID_REPRESENTATIONS 1000 (VInt 7) (VBool false) (VInt 3) init_state =
  (Raise (TypeError "issubclass() arg 1 must be a class"), abandoned init_state).
Proof. vm_compute. reflexivity. Qed.

Example instance_default :
  instance_at Upstream.ALL_UUID_REPRESENTATIONS st_two 0 (VClass dict) (VBool false) (VInt 3).
Proof. repeat split; vm_compute; reflexivity. Qed.

Example instance_second :
  instance_at Upstream.ALL_UUID_REPRESENTATIONS st_two 1 (VClass OrderedDict) (VBool true) (VInt 4).
Proof. repeat split; vm_compute; reflexivity. Qed.

(** C4: [a != b] is not the negation of [a == b].  On the instances of
    [CodecOptions()] and [CodecOptions(OrderedDict, True, 4)], [a == b]
    returns [False] and [a == a] returns [True], while [a != b] and
    [a != a] both end in the RuntimeError of the recursion limit. *)
Theorem ne_is_not_negation :
  op_eq 1000 (VRef 0) (VRef 1) st_two = (Ret false, st_two) ∧
  op_ne 1000 (VRef 0) (VRef 1) st_two = (Raise recursion_limit, st_two) ∧
  op_eq 1000 (VRef 0) (VRef 0) st_two = (Ret true, st_two) ∧
  op_ne 1000 (VRef 0) (VRef 0) st_two = (Raise recursion_limit, st_two).
Proof. repeat split; vm_compute; reflexivity. Qed.

(** C5 as stated fails, in both directions: the check of [__init__]
    is on the bases of the class, not on what it implements.
    [SortedMap] does not preserve insertion order, so it falls short of
    the capability set, and the constructor accepts it; [Journal] has
    the whole capability set, and the constructor rejects it with
    TypeError, since it is not a subclass of MutableMapping. *)
Lemma container_capability_counterexample :
  (ordered_mutable_map (decl_caps SortedMap) = false ∧
   CodecOptions Upstream.ALL_UUID_REPRESENTATIONS 1000
     (VClass (decl_class SortedMap)) (VBool false) (VInt 3) init_state =
   (Ret (VRef 0),
    constructed init_state (VClass (decl_class SortedMap)) (VBool false) (VInt 3)) ∧
   is_TypeError
     (fst (CodecOptions Upstream.ALL_UUID_REPRESENTATIONS 1000
             (VClass (decl_class SortedMap)) (VBool false) (VInt 3) init_state)) = false) ∧
  (ordered_mutable_map (decl_caps Journal) = true ∧
   CodecOptions Upstream.ALL_UUID_REPRESENTATIONS 1000
     (VClass (decl_class Journal)) (VBool false) (VInt 3) init_state =
   (Raise (TypeError "document_class must be a subclass of MutableMapping"),
    abandoned init_state)).
Proof. repeat split; vm_compute; reflexivity. Qed.

(** C7 as stated fails: the instance of [CodecOptions()] is not a
    member of the enumerated set, and with it as [uuid_representation]
    the membership test compares it with the first code of the tuple
    through [__eq__], which raises NotImplementedError; no ValueError
    is raised. *)
Lemma uuid_check_instance_counterexample :
  container_ok (VClass dict) = true ∧
  isinstance_bool (VBool false) = true ∧
  uuid_member Upstream.ALL_UUID_REPRESENTATIONS (VRef 0) = false ∧
  CodecOptions Upstream.ALL_UUID_REPRESENTATIONS 1000 (VClass dict) (VBool false) (VRef 0) st_default =
    (Raise NotImplementedError, abandoned st_default) ∧
  is_ValueError
    (fst (CodecOptions Upstream.ALL_UUID_REPRESENTATIONS 1000
            (VClass dict) (VBool false) (VRef 0) st_default)) = false.
Proof. repeat split; vm_compute; reflexivity. Qed.

(** ** The theorems at concrete inputs *)

Lemma construct_valid_accessors_witness :
  CodecOptions Upstream.ALL_UUID_REPRESENTATIONS 1000
    (VClass OrderedDict) (VBool true) (VInt 4) st_default = (Ret (VRef 1), st_two) ∧
  as_class 1 st_two = (Ret (VClass OrderedDict), st_two) ∧
  tz_aware 1 st_two = (Ret (VBool true), st_two) ∧
  uuid_representation 1 st_two = (Ret (VInt 4), st_two).
Proof.
  apply (construct_valid_accessors Upstream.ALL_UUID_REPRESENTATIONS 1000
           (VClass OrderedDict) (VBool true) (VInt 4) st_default); reflexivity.
Defined.

Lemma eq_fieldwise_witness :
  op_eq 1000 (VRef 0) (VRef 1) st_two = (Ret false, st_two) ∧
  op_eq 1000 (VRef 0) (VRef 0) st_two = (Ret true, st_two) ∧
  op_eq 1000 (VRef 0) (VRef 1) st_two = op_eq 1000 (VRef 1) (VRef 0) st_two.
Proof.
  destruct (eq_fieldwise Upstream.ALL_UUID_REPRESENTATIONS 999 st_two 0 1 0
              (VClass dict) (VBool false) (VInt 3)
              (VClass OrderedDict) (VBool true) (VInt 4)
              (VClass dict) (VBool false) (VInt 3))
    as (Hab & _ & _ & Haa & Hsym & _);
    [repeat split; vm_compute; reflexivity ..|].
  split; [exact Hab|]. split; [exact Haa | exact Hsym].
Defined.

Lemma parse_codec_options_delegates_witness :
  _parse_codec_options Upstream.ALL_UUID_REPRESENTATIONS Upstream.PYTHON_LEGACY 1000
    {["unrelated_key" := VInt 123]} init_state =
  (Ret (VRef 0), st_default).
Proof.
  destruct (parse_codec_options_delegates Upstream.ALL_UUID_REPRESENTATIONS Upstream.PYTHON_LEGACY
              1000 {["unrelated_key" := VInt 123]} init_state) as (_ & _ & _ & H).
  destruct H as [_ H]; [reflexivity ..|].
  apply H. vm_compute. left.
Defined.

Lemma container_check_witness :
  container_ok (VClass str) = false ∧
  is_TypeError (fst (CodecOptions Upstream.ALL_UUID_REPRESENTATIONS 1000
                       (VClass str) (VBool false) (VInt 3) init_state)) = true ∧
  snd (CodecOptions Upstream.ALL_UUID_REPRESENTATIONS 1000
         (VClass str) (VBool false) (VInt 3) init_state) = abandoned init_state ∧
  container_ok (VClass (decl_class SortedMap)) = true ∧
  is_TypeError (fst (CodecOptions Upstream.ALL_UUID_REPRESENTATIONS 1000
                       (VClass (decl_class SortedMap)) (VBool true) (VRef 0) st_default)) = false.
Proof.
  split; [reflexivity|].
  destruct (container_check Upstream.ALL_UUID_REPRESENTATIONS 1000
              (VClass str) (VBool false) (VInt 3) init_state) as [[H1 H2] _];
    [reflexivity|].
  split; [exact H1|]. split; [exact H2|]. split; [reflexivity|].
  destruct (container_check Upstream.ALL_UUID_REPRESENTATIONS 1000
              (VClass (decl_class SortedMap)) (VBool true) (VRef 0) st_default)
    as [_ H]. destruct H as (_ & _ & _ & _ & H & _); [reflexivity|].
  apply H. reflexivity.
Defined.

Lemma bool_check_before_uuid_witness :
  container_ok (VClass dict) = true ∧ isinstance_bool (VInt 1) = false ∧
  CodecOptions Upstream.ALL_UUID_REPRESENTATIONS 1000 (VClass dict) (VInt 1) (VRef 0) st_default =
  (Raise (TypeError "tz_aware must be a boolean"), abandoned st_default).
Proof.
  split; [reflexivity|]. split; [reflexivity|].
  apply (bool_check_before_uuid Upstream.ALL_UUID_REPRESENTATIONS 1000
           (VClass dict) (VInt 1) (VRef 0) st_default); reflexivity.
Defined.

Lemma uuid_check_witness :
  uuid_member Upstream.ALL_UUID_REPRESENTATIONS (VInt 7) = false ∧
  CodecOptions Upstream.ALL_UUID_REPRESENTATIONS 1000 (VClass dict) (VBool false) (VInt 7) init_state =
  (Raise (ValueError "uuid_representation must be a value from bson.binary.ALL_UUID_REPRESENTATIONS"),
   abandoned init_state).
Proof.
  split; [reflexivity|].
  apply (uuid_check Upstream.ALL_UUID_REPRESENTATIONS 1000
           (VClass dict) (VBool false) (VInt 7) init_state); reflexivity.
Defined.

Lemma eq_other_type_raises_witness :
  isinstance_CodecOptions (VInt 3) = false ∧
  op_eq 1000 (VRef 0) (VInt 3) st_default = (Raise NotImplementedError, st_default).
Proof.
  split; [reflexivity|].
  apply (eq_other_type_raises 999 0 (VInt 3) st_default). reflexivity.
Defined.

Lemma fields_set_once_witness :
  heap (snd (CodecOptions Upstream.ALL_UUID_REPRESENTATIONS 1000
               (VClass OrderedDict) (VBool true) (VRef 0) st_default)) !! 0%nat =
  heap st_default !! 0%nat.
Proof.
  apply (fields_set_once Upstream.ALL_UUID_REPRESENTATIONS 1000
           (VClass OrderedDict) (VBool true) (VRef 0) st_default). vm_compute. lia.
Defined.

(** ** Further properties of the constructor and the operators *)

Section CodecMore.

Context (ALL : list Z) (LEGACY : Z).

Lemma issubclass_container c :
  issubclass c MutableMapping = Ret true → container_ok c = true.
Proof. destruct c; simpl; try discriminate. intros [= H]. exact H. Qed.

Lemma tuple_contains_instance n x t l st :
  tuple_contains (S n) (x :: t) (VRef l) st = (Raise NotImplementedError, st).
Proof. reflexivity. Qed.

Lemma tuple_contains_true n t u st :
  fst (tuple_contains n t u st) = Ret true → uuid_member t u = true.
Proof.
  destruct u; try (rewrite tuple_contains_prim by reflexivity; intros [= H]; exact H).
  destruct t as [|x t]; [discriminate|]. destruct n; discriminate.
Qed.

Lemma construct_returns_valid n c t u st :
  returned (fst (CodecOptions ALL n c t u st)) = true →
  container_ok c = true ∧ isinstance_bool t = true ∧ uuid_member ALL u = true.
Proof.
  rewrite construct_unfold.
  destruct (issubclass c MutableMapping) as [[]|] eqn:Ec; try discriminate.
  destruct (isinstance_bool t); try discriminate.
  destruct (fst (tuple_contains n ALL u (abandoned st))) as [[]|] eqn:Eu; try discriminate.
  intros _. split; [apply issubclass_container, Ec|]. split; [reflexivity|].
  eapply tuple_contains_true, Eu.
Qed.

Lemma instance_at_abandoned st l c t u :
  instance_at ALL st l c t u → instance_at ALL (abandoned st) l c t u.
Proof.
  intros (Hl & H). split; [|exact H]. unfold abandoned. cbn [heap].
  apply lookup_app_l_Some. exact Hl.
Qed.

Lemma instance_at_step n c' t' u' st l c t u :
  instance_at ALL st l c t u →
  instance_at ALL (snd (CodecOptions ALL n c' t' u' st)) l c t u.
Proof.
  intros H. destruct (construct_cases ALL n c' t' u' st) as [-> | [e ->]]; cbn [snd];
    [apply instance_at_old | apply instance_at_abandoned]; exact H.
Qed.

Lemma new_writes_nodup (l : nat) :
  NoDup [(l, S_as_class); (l, S_tz_aware); (l, S_uuid_rep)].
Proof.
  repeat (apply NoDup_cons; split;
          [rewrite ?elem_of_cons, elem_of_nil; intros H; intuition congruence|]).
  constructor.
Qed.

Lemma new_writes_elem (l l' : nat) s :
  (l', s) ∈ [(l, S_as_class); (l, S_tz_aware); (l, S_uuid_rep)] ↔ l' = l.
Proof.
  rewrite !elem_of_cons, elem_of_nil. split.
  - intros [H | [H | [H | []]]]; congruence.
  - intros ->. destruct s; auto.
Qed.

(** What holds along every history. *)
Lemma history_inv st refs :
  history ALL st refs →
  (∀ l, l ∈ refs → ∃ c t u, instance_at ALL st l c t u) ∧
  (∀ l o, heap st !! l = Some o → l ∉ refs → o = empty_object) ∧
  NoDup (writes st) ∧
  (∀ l s, (l, s) ∈ writes st ↔ l ∈ refs) ∧
  (∀ l, l ∈ refs → (l < length (heap st))%nat).
Proof.
  induction 1 as [|n c t u st refs Hh (Hinst & Hempty & Hnd & Hw & Hlt)].
  - split; [|split; [|split; [|split]]].
    + intros l Hl. apply elem_of_nil in Hl as [].
    + intros l o Hl. cbn in Hl. rewrite lookup_nil in Hl. discriminate.
    + constructor.
    + intros l s. cbn [writes init_state]. rewrite !elem_of_nil. tauto.
    + intros l Hl. apply elem_of_nil in Hl as [].
  - assert (Hfresh : length (heap st) ∉ refs).
    { intros Hin. apply Hlt in Hin. lia. }
    pose proof (construct_returns_valid n c t u st) as Hvalid.
    destruct (construct_cases ALL n c t u st) as [E | [e E]]; rewrite E in *;
      cbn [fst snd new_refs returned] in *.
    + destruct (Hvalid eq_refl) as (Hc & Ht & Hu).
      split; [|split; [|split; [|split]]].
      * intros l Hl. apply elem_of_cons in Hl as [-> | Hl].
        -- exists c, t, u. apply instance_at_new; assumption.
        -- destruct (Hinst l Hl) as (c0 & t0 & u0 & H0).
           exists c0, t0, u0. apply instance_at_old, H0.
      * intros l o Hl Hnot. apply not_elem_of_cons in Hnot as [Hne Hnot].
        unfold constructed in Hl. cbn [heap] in Hl.
        apply lookup_app_Some in Hl as [Hl | [Hge Hl]]; [eapply Hempty; eassumption|].
        apply list_lookup_singleton_Some in Hl as [Hz _]. lia.
      * unfold constructed. cbn [writes]. apply NoDup_app. split; [exact Hnd|].
        split; [|apply new_writes_nodup].
        intros [l s] Hin Hnew. apply new_writes_elem in Hnew. subst l.
        apply Hfresh, (Hw _ s), Hin.
      * intros l s. unfold constructed. cbn [writes].
        rewrite elem_of_app, new_writes_elem, elem_of_cons, Hw. tauto.
      * intros l Hl. unfold constructed. cbn [heap]. rewrite length_app. cbn [length].
        apply elem_of_cons in Hl as [-> | Hl]; [lia|]. apply Hlt in Hl. lia.
    + split; [|split; [|split; [|split]]].
      * intros l Hl. destruct (Hinst l Hl) as (c0 & t0 & u0 & H0).
        exists c0, t0, u0. apply instance_at_abandoned, H0.
      * intros l o Hl Hnot. unfold abandoned in Hl. cbn [heap] in Hl.
        apply lookup_app_Some in Hl as [Hl | [Hge Hl]]; [eapply Hempty; eassumption|].
        apply list_lookup_singleton_Some in Hl as [_ Hl]. congruence.
      * exact Hnd.
      * exact Hw.
      * intros l Hl. unfold abandoned. cbn [heap]. rewrite length_app. cbn [length].
        apply Hlt in Hl. lia.
Qed.

Lemma member_of_int t u z : z ∈ t → int_of u = Some z → uuid_member t u = true.
Proof.
  intros Hz Hu. induction Hz as [z t|z x t _ IH]; cbn [uuid_member existsb].
  - destruct u; try discriminate; injection Hu as <-; cbn [prim_eqb int_of];
      rewrite Z.eqb_refl; reflexivity.
  - unfold uuid_member in IH. rewrite IH by exact Hu. apply orb_true_r.
Qed.

Lemma length_constructed st c t u :
  length (heap (constructed st c t u)) = S (length (heap st)).
Proof. unfold constructed. cbn [heap]. rewrite length_app. cbn [length]. lia. Qed.

Lemma op_ne_instance_left n a b st :
  op_ne n (VRef a) b st = (Raise recursion_limit, st).
Proof.
  induction n as [|n IH]; [destruct b; reflexivity|].
  destruct b; cbn [op_ne]; exact IH.
Qed.

(** The constructor returns an instance exactly when the three
    arguments pass the three checks: no instance exists whose fields
    were not validated. *)
Theorem construct_succeeds_iff n c t u st :
  returned (fst (CodecOptions ALL n c t u st)) = true ↔
  container_ok c = true ∧ isinstance_bool t = true ∧ uuid_member ALL u = true.
Proof.
  split; [apply construct_returns_valid|].
  intros (Hc & Ht & Hu). rewrite (construct_run ALL n c t u st Hc Ht Hu). reflexivity.
Qed.

(** With a non-empty tuple of codes and the first two arguments valid,
    an instance passed as [uuid_representation] makes the constructor
    raise the NotImplementedError of [__eq__], whichever instance it is
    and whatever the codes are; no slot is assigned. *)
Theorem construct_instance_as_uuid n c t l st :
  ALL ≠ [] → container_ok c = true → isinstance_bool t = true →
  CodecOptions ALL (S n) c t (VRef l) st = (Raise NotImplementedError, abandoned st).
Proof.
  intros Hne Hc Ht. rewrite construct_unfold, (container_ok_issubclass c Hc), Ht.
  destruct ALL as [|x all]; [congruence|].
  rewrite tuple_contains_instance. reflexivity.
Qed.

(** Along every history of constructor calls, each instance a call
    returned has its three slots assigned, the accessors return their
    values without raising, and the values pass the three checks; every
    other object of the heap, left by a call that raised, has no slot
    assigned. *)
Theorem history_instances_valid st refs :
  history ALL st refs →
  (∀ l, l ∈ refs →
     ∃ c t u, as_class l st = (Ret c, st) ∧ tz_aware l st = (Ret t, st) ∧
              uuid_representation l st = (Ret u, st) ∧
              container_ok c = true ∧ isinstance_bool t = true ∧ uuid_member ALL u = true) ∧
  (∀ l o, heap st !! l = Some o → l ∉ refs → o = empty_object).
Proof.
  intros H. destruct (history_inv st refs H) as (Hinst & Hempty & _).
  split; [|exact Hempty].
  intros l Hl. destruct (Hinst l Hl) as (c & t & u & Hi).
  exists c, t, u. destruct (getattr_instance ALL st l c t u Hi) as (H1 & H2 & H3).
  destruct Hi as (_ & Hc & Ht & Hu). auto 10.
Qed.

(** Along every history of constructor calls no slot is assigned
    twice, and the slots assigned are the three slots of each instance
    a call returned, and no other. *)
Theorem history_writes_once st refs :
  history ALL st refs →
  NoDup (writes st) ∧ (∀ l s, (l, s) ∈ writes st ↔ l ∈ refs).
Proof.
  intros H. destruct (history_inv st refs H) as (_ & _ & Hnd & Hw & _). auto.
Qed.

(** Two instances returned along a history can always be compared:
    [a == b] returns a truth value and raises nothing, for every
    positive bound on the nested dispatches to [__eq__]. *)
Theorem eq_total_on_history n st refs a b :
  history ALL st refs → a ∈ refs → b ∈ refs →
  ∃ r, op_eq (S n) (VRef a) (VRef b) st = (Ret r, st).
Proof.
  intros H Ha Hb. destruct (history_inv st refs H) as (Hinst & _).
  destruct (Hinst a Ha) as (ca & ta & ua & Hia), (Hinst b Hb) as (cb & tb & ub & Hib).
  eexists. apply (op_eq_instances ALL n st a b _ _ _ _ _ _ Hia Hib).
Qed.

(** A later call of the constructor, whether it returns or raises,
    changes neither what the accessors of an existing instance return
    nor the result of comparing two existing instances. *)
Theorem eq_stable_under_construction n m c t u st a b ca ta ua cb tb ub :
  instance_at ALL st a ca ta ua → instance_at ALL st b cb tb ub →
  fst (op_eq (S n) (VRef a) (VRef b) (snd (CodecOptions ALL m c t u st))) =
    fst (op_eq (S n) (VRef a) (VRef b) st) ∧
  fst (as_class a (snd (CodecOptions ALL m c t u st))) = Ret ca ∧
  fst (tz_aware a (snd (CodecOptions ALL m c t u st))) = Ret ta ∧
  fst (uuid_representation a (snd (CodecOptions ALL m c t u st))) = Ret ua.
Proof.
  intros Ha Hb.
  pose proof (instance_at_step m c t u st a _ _ _ Ha) as Ha'.
  pose proof (instance_at_step m c t u st b _ _ _ Hb) as Hb'.
  rewrite (op_eq_instances ALL n _ a b _ _ _ _ _ _ Ha' Hb'),
    (op_eq_instances ALL n _ a b _ _ _ _ _ _ Ha Hb).
  destruct (getattr_instance ALL _ a _ _ _ Ha') as (H1 & H2 & H3).
  unfold as_class, tz_aware, uuid_representation. rewrite H1, H2, H3. auto.
Qed.

(** Two calls of the constructor with the same valid arguments return
    two different instances, and the two compare equal: [==] compares
    the fields, not the identity. *)
Theorem construct_twice_distinct_equal n c t u st :
  container_ok c = true → isinstance_bool t = true → uuid_member ALL u = true →
  ∃ l1 l2 st1 st2,
    CodecOptions ALL n c t u st = (Ret (VRef l1), st1) ∧
    CodecOptions ALL n c t u st1 = (Ret (VRef l2), st2) ∧
    l1 ≠ l2 ∧
    op_eq (S n) (VRef l1) (VRef l2) st2 = (Ret true, st2).
Proof.
  intros Hc Ht Hu.
  exists (length (heap st)), (length (heap (constructed st c t u))),
    (constructed st c t u), (constructed (constructed st c t u) c t u).
  split; [apply construct_run; assumption|].
  split; [apply construct_run; assumption|].
  split; [rewrite length_constructed; lia|].
  rewrite (op_eq_instances ALL n _ _ _ c t u c t u);
    [| apply instance_at_old, instance_at_new; assumption
     | apply instance_at_new; assumption].
  rewrite !prim_eqb_refl;
    eauto using container_not_instance, bool_not_instance, member_not_instance.
Qed.

(** When [as_class] fails the container check the outcome of the
    constructor depends on [as_class] and the state only: [tz_aware],
    [uuid_representation] and the call depth are not looked at. *)
Theorem container_failure_independent n n' c t t' u u' st :
  container_ok c = false →
  CodecOptions ALL n c t u st = CodecOptions ALL n' c t' u' st.
Proof.
  intros Hc. rewrite !construct_unfold.
  destruct c; simpl in Hc |- *; try reflexivity.
  fold MutableMapping. rewrite Hc. reflexivity.
Qed.

(** [b != a] with an instance as the right operand returns nothing
    either, whatever [b] is: the built-in types defer to the reflected
    [__ne__] of the instance, which recurses as before. *)
Theorem ne_reflected_never_returns n a b st :
  op_ne n b (VRef a) st = (Raise recursion_limit, st) ∧
  returned (fst (op_ne n b (VRef a) st)) = false.
Proof.
  assert (H : op_ne n b (VRef a) st = (Raise recursion_limit, st)).
  { destruct b; try apply op_ne_instance_left;
      (destruct n; [reflexivity|]); cbn [op_ne]; apply op_ne_instance_left. }
  rewrite H. split; reflexivity.
Qed.

(** A key that is present is never replaced by its default.  With
    "tz_aware" present and not a [bool] ([None] included) and a valid
    document class, [_parse_codec_options] raises the TypeError of the
    boolean check; with "document_class" present and not a
    MutableMapping subclass it raises TypeError whatever else the bag
    holds. *)
Theorem parse_present_not_defaulted n (bag : gmap string value) v st :
  (bag !! "tz_aware" = Some v → isinstance_bool v = false →
   container_ok (dict_get bag "document_class" (VClass dict)) = true →
   _parse_codec_options ALL LEGACY n bag st =
   (Raise (TypeError "tz_aware must be a boolean"), abandoned st)) ∧
  (bag !! "document_class" = Some v → container_ok v = false →
   is_TypeError (fst (_parse_codec_options ALL LEGACY n bag st)) = true ∧
   snd (_parse_codec_options ALL LEGACY n bag st) = abandoned st).
Proof.
  split.
  - intros Hv Hb Hc. unfold _parse_codec_options.
    apply construct_fail_bool; [exact Hc|]. unfold dict_get. rewrite Hv. exact Hb.
  - intros Hv Hc. unfold _parse_codec_options.
    destruct (construct_fail_container ALL n (dict_get bag "document_class" (VClass dict))
                (dict_get bag "tz_aware" (VBool false))
                (dict_get bag "uuidrepresentation" (VInt LEGACY)) st) as [msg ->].
    + unfold dict_get. rewrite Hv. exact Hc.
    + split; reflexivity.
Qed.

(** A bag whose only known key is "tz_aware", with a [bool] for value,
    gives an instance with that value for [tz_aware] and the defaults
    [dict] and [PYTHON_LEGACY] for the other two fields. *)
Theorem parse_tz_aware_only n (bag : gmap string value) b st :
  LEGACY ∈ ALL →
  bag !! "document_class" = None → bag !! "tz_aware" = Some (VBool b) →
  bag !! "uuidrepresentation" = None →
  ∃ l st',
    _parse_codec_options ALL LEGACY n bag st = (Ret (VRef l), st') ∧
    as_class l st' = (Ret (VClass dict), st') ∧
    tz_aware l st' = (Ret (VBool b), st') ∧
    uuid_representation l st' = (Ret (VInt LEGACY), st').
Proof.
  intros Hin H1 H2 H3.
  exists (length (heap st)), (constructed st (VClass dict) (VBool b) (VInt LEGACY)).
  unfold _parse_codec_options, dict_get. rewrite H1, H2, H3.
  assert (Hu : uuid_member ALL (VInt LEGACY) = true) by (apply member_of_elem, Hin).
  split; [apply construct_run; [reflexivity | reflexivity | exact Hu]|].
  apply (getattr_instance ALL), instance_at_new; [reflexivity | reflexivity | exact Hu].
Qed.

(** The membership test has no type check: with the first two
    arguments valid, a [bool] passed as [uuid_representation] is
    accepted exactly when the integer it denotes (1 for [True], 0 for
    [False]) is one of the codes. *)
Theorem bool_uuid_accepted_iff n c t b st :
  container_ok c = true → isinstance_bool t = true →
  (returned (fst (CodecOptions ALL n c t (VBool b) st)) = true ↔ Z.b2z b ∈ ALL).
Proof.
  intros Hc Ht. split.
  - intros H. apply construct_returns_valid in H as (_ & _ & Hu).
    apply member_int in Hu as (z & Hz & Hb). injection Hb as <-. exact Hz.
  - intros Hz. rewrite (construct_run ALL n c t (VBool b) st Hc Ht); [reflexivity|].
    apply (member_of_int ALL (VBool b) (Z.b2z b) Hz). reflexivity.
Qed.

End CodecMore.

(** ** The further properties at concrete inputs *)

(** The two calls that lead to [st_two] returned the instances 0 and 1. *)
Example history_two :
  history Upstream.ALL_UUID_REPRESENTATIONS st_two [1%nat; 0%nat].
Proof.
  exact (history_call Upstream.ALL_UUID_REPRESENTATIONS 1000
           (VClass OrderedDict) (VBool true) (VInt 4) st_default [0%nat]
           (history_call Upstream.ALL_UUID_REPRESENTATIONS 1000
              (VClass dict) (VBool false) (VInt 3) init_state []
              (history_init Upstream.ALL_UUID_REPRESENTATIONS))).
Qed.

Lemma construct_instance_as_uuid_witness :
  CodecOptions Upstream.ALL_UUID_REPRESENTATIONS 1000
    (VClass OrderedDict) (VBool true) (VRef 1) st_two =
  (Raise NotImplementedError, abandoned st_two).
Proof.
  apply (construct_instance_as_uuid Upstream.ALL_UUID_REPRESENTATIONS 999
           (VClass OrderedDict) (VBool true) 1 st_two);
    [discriminate | reflexivity | reflexivity].
Defined.

Lemma history_instances_valid_witness :
  ∃ c t u, as_class 1 st_two = (Ret c, st_two) ∧ tz_aware 1 st_two = (Ret t, st_two) ∧
           uuid_representation 1 st_two = (Ret u, st_two) ∧
           container_ok c = true ∧ isinstance_bool t = true ∧
           uuid_member Upstream.ALL_UUID_REPRESENTATIONS u = true.
Proof.
  destruct (history_instances_valid Upstream.ALL_UUID_REPRESENTATIONS st_two
              [1%nat; 0%nat] history_two) as [H _].
  apply (H 1%nat). left.
Defined.

Lemma history_writes_once_witness :
  NoDup (writes st_two) ∧ (∀ l s, (l, s) ∈ writes st_two ↔ l ∈ [1%nat; 0%nat]).
Proof.
  exact (history_writes_once Upstream.ALL_UUID_REPRESENTATIONS st_two
           [1%nat; 0%nat] history_two).
Defined.

Lemma eq_total_on_history_witness :
  ∃ r, op_eq 1000 (VRef 0) (VRef 1) st_two = (Ret r, st_two).
Proof.
  apply (eq_total_on_history Upstream.ALL_UUID_REPRESENTATIONS 999 st_two
           [1%nat; 0%nat] 0 1 history_two); [right; left | left].
Defined.

Lemma eq_stable_under_construction_witness :
  fst (op_eq 1000 (VRef 0) (VRef 1)
         (snd (CodecOptions Upstream.ALL_UUID_REPRESENTATIONS 1000
                 (VInt 7) (VBool false) (VInt 3) st_two))) =
  fst (op_eq 1000 (VRef 0) (VRef 1) st_two).
Proof.
  apply (eq_stable_under_construction Upstream.ALL_UUID_REPRESENTATIONS 999 1000
           (VInt 7) (VBool false) (VInt 3) st_two 0 1
           (VClass dict) (VBool false) (VInt 3)
           (VClass OrderedDict) (VBool true) (VInt 4));
    repeat split; vm_compute; reflexivity.
Defined.

Lemma construct_twice_distinct_equal_witness :
  ∃ l1 l2 st1 st2,
    CodecOptions Upstream.ALL_UUID_REPRESENTATIONS 1000
      (VClass dict) (VBool false) (VInt 3) init_state = (Ret (VRef l1), st1) ∧
    CodecOptions Upstream.ALL_UUID_REPRESENTATIONS 1000
      (VClass dict) (VBool false) (VInt 3) st1 = (Ret (VRef l2), st2) ∧
    l1 ≠ l2 ∧
    op_eq 1001 (VRef l1) (VRef l2) st2 = (Ret true, st2).
Proof.
  apply (construct_twice_distinct_equal Upstream.ALL_UUID_REPRESENTATIONS 1000
           (VClass dict) (VBool false) (VInt 3) init_state); reflexivity.
Defined.

Lemma container_failure_independent_witness :
  CodecOptions Upstream.ALL_UUID_REPRESENTATIONS 1000
    (VClass str) (VBool false) (VInt 3) st_default =
  CodecOptions Upstream.ALL_UUID_REPRESENTATIONS 0 (VClass str) VNone (VRef 0) st_default.
Proof.
  apply (container_failure_independent Upstream.ALL_UUID_REPRESENTATIONS 1000 0
           (VClass str) (VBool false) VNone (VInt 3) (VRef 0) st_default). reflexivity.
Defined.

Lemma parse_present_not_defaulted_witness :
  _parse_codec_options Upstream.ALL_UUID_REPRESENTATIONS Upstream.PYTHON_LEGACY 1000
    {["tz_aware" := VNone]} init_state =
  (Raise (TypeError "tz_aware must be a boolean"), abandoned init_state).
Proof.
  apply (parse_present_not_defaulted Upstream.ALL_UUID_REPRESENTATIONS Upstream.PYTHON_LEGACY
           1000 {["tz_aware" := VNone]} VNone init_state); reflexivity.
Defined.

Lemma parse_tz_aware_only_witness :
  ∃ l st',
    _parse_codec_options Upstream.ALL_UUID_REPRESENTATIONS Upstream.PYTHON_LEGACY 1000
      (<["w" := VInt 1]> {["tz_aware" := VBool true]}) init_state = (Ret (VRef l), st') ∧
    as_class l st' = (Ret (VClass dict), st') ∧
    tz_aware l st' = (Ret (VBool true), st') ∧
    uuid_representation l st' = (Ret (VInt Upstream.PYTHON_LEGACY), st').
Proof.
  apply (parse_tz_aware_only Upstream.ALL_UUID_REPRESENTATIONS Upstream.PYTHON_LEGACY
           1000 (<["w" := VInt 1]> {["tz_aware" := VBool true]}) true init_state);
    [left | reflexivity | reflexivity | reflexivity].
Defined.

Lemma bool_uuid_accepted_iff_witness :
  returned (fst (CodecOptions [0; 1; 2] 1000 (VClass dict) (VBool false) (VBool true)
                   init_state)) = true ↔ 1 ∈ [0; 1; 2].
Proof.
  apply (bool_uuid_accepted_iff [0; 1; 2] 1000 (VClass dict) (VBool false) true init_state);
    reflexivity.
Defined.
